(** * Batch normalisation layer: a shallow embedding of [batch_norm.py]

    The Python class [BatchNormalizedLayer] is embedded method by method.
    Arrays are a small model of numpy's [ndarray] (ranks 0, 1 and 2, with
    numpy's broadcasting rule), generic in the scalar type the way numpy is
    generic in its dtype.  Two scalar types are provided: IEEE binary64
    (Rocq's primitive floats), on which the methods run as the Python code
    does, and the real numbers, for the algebra of the gradient formulas.
    Exceptions are values of type [exn]; a method maps the instance to the
    updated instance and either a value or the exception raised.

    The source file uses the name [np] without importing it; it is taken to
    be bound to numpy, as the docstrings and the calls require. *)

From Stdlib Require Import Floats.PrimFloat.
From Stdlib Require Uint63.
From Stdlib Require Import ZArith Reals Lra Lia.
From stdpp Require Import ssreflect base list strings option gmap pretty.

Set Default Proof Using "Type*".

(** ** Scalars *)

(** What the code needs from the element type of its arrays. *)
Class Scalar (A : Type) := {
  s_of_Z : Z -> A;          (* a Python int used as a float: [2], [-1], [N], [1.0], [0.] *)
  s_eps : A;                (* the literal [1e-8] *)
  s_neg_half : A;           (* the literal [-0.5] *)
  s_add : A -> A -> A;
  s_sub : A -> A -> A;
  s_mul : A -> A -> A;
  s_div : A -> A -> A;
  s_sqrt : A -> A
}.

(** Conversion of a Python int to binary64, exact below 2^53 and correctly
    rounded below 2^63 in absolute value. *)
Definition float_of_Z (z : Z) : PrimFloat.float :=
  match z with
  | Z0 => 0%float
  | Zpos _ => PrimFloat.of_uint63 (Uint63.of_Z z)
  | Zneg p => PrimFloat.opp (PrimFloat.of_uint63 (Uint63.of_Z (Zpos p)))
  end.

#[export] Instance float_scalar : Scalar PrimFloat.float := {
  s_of_Z := float_of_Z;
  s_eps := 0x1.5798ee2308c3ap-27%float;
  s_neg_half := (-0.5)%float;
  s_add := PrimFloat.add;
  s_sub := PrimFloat.sub;
  s_mul := PrimFloat.mul;
  s_div := PrimFloat.div;
  s_sqrt := PrimFloat.sqrt
}.

#[export] Instance real_scalar : Scalar R := {
  s_of_Z := IZR;
  s_eps := 1e-8%R;
  s_neg_half := (- (1 / 2))%R;
  s_add := Rplus;
  s_sub := Rminus;
  s_mul := Rmult;
  s_div := Rdiv;
  s_sqrt := R_sqrt.sqrt
}.

#[export] Instance scalar_inhabited `{Scalar A} : Inhabited A := populate (s_of_Z 0).

(** ** Exceptions and results *)

Inductive exn_class :=
| AttributeError | AxisError | IndexError | TypeError | ValueError | ZeroDivisionError.

Record exn := Raise { exn_cls : exn_class; exn_msg : string }.

Inductive result (X : Type) :=
| Ok (x : X)
| Err (e : exn).
Arguments Ok {X} x.
Arguments Err {X} e.

#[export] Instance result_ret : MRet result := @Ok.
#[export] Instance result_bind : MBind result := fun X Y f r =>
  match r with Ok x => f x | Err e => Err e end.

(** ** Arrays *)

(** A numpy array of rank 0, 1 or 2.  A rank-2 array records its number of
    columns, which an empty batch still has. *)
Inductive ndarray (A : Type) :=
| Arr0 (x : A)
| Arr1 (v : list A)
| Arr2 (ncols : nat) (rows : list (list A)).
Arguments Arr0 {A} x.
Arguments Arr1 {A} v.
Arguments Arr2 {A} ncols rows.

(** Every row of a rank-2 array has [ncols] entries. *)
Definition rect {A} (D : nat) (rows : list (list A)) : Prop :=
  Forall (fun r => length r = D) rows.

(** [a.shape] *)
Definition shape {A} (a : ndarray A) : list nat :=
  match a with
  | Arr0 _ => []
  | Arr1 v => [length v]
  | Arr2 c rows => [length rows; c]
  end.

(** numpy's broadcasting rule for one axis: equal lengths, or one of them 1. *)
Definition bdim (m n : nat) : option nat :=
  if decide (m = n) then Some m
  else if decide (m = 1) then Some n
  else if decide (n = 1) then Some m
  else None.

Definition broadcast_error : exn :=
  Raise ValueError "operands could not be broadcast together".

Definition bdim_r (m n : nat) : result nat :=
  match bdim m n with Some k => Ok k | None => Err broadcast_error end.

(** An axis of length 1 is repeated to the broadcast length. *)
Definition stretch {X} (n : nat) (l : list X) : list X :=
  match l with [x] => replicate n x | _ => l end.

Definition zip_b {A} (f : A -> A -> A) (n : nat) (v w : list A) : list A :=
  zip_with f (stretch n v) (stretch n w).

(** An elementwise binary operation ([+], [-], [*], [np.divide]) with
    broadcasting; a rank-1 array counts as one row. *)
Definition nd_binop {A} (f : A -> A -> A) (a b : ndarray A) : result (ndarray A) :=
  match a, b with
  | Arr0 x, Arr0 y => Ok (Arr0 (f x y))
  | Arr0 x, Arr1 w => Ok (Arr1 (f x <$> w))
  | Arr0 x, Arr2 c rs => Ok (Arr2 c ((fun r : list A => f x <$> r) <$> rs))
  | Arr1 v, Arr0 y => Ok (Arr1 ((fun x => f x y) <$> v))
  | Arr1 v, Arr1 w =>
      n ← bdim_r (length v) (length w);
      Ok (Arr1 (zip_b f n v w))
  | Arr1 v, Arr2 c rs =>
      n ← bdim_r (length v) c;
      Ok (Arr2 n ((fun r => zip_b f n v r) <$> rs))
  | Arr2 c rs, Arr0 y => Ok (Arr2 c ((fun r : list A => (fun x => f x y) <$> r) <$> rs))
  | Arr2 c rs, Arr1 w =>
      n ← bdim_r c (length w);
      Ok (Arr2 n ((fun r => zip_b f n r w) <$> rs))
  | Arr2 c1 r1, Arr2 c2 r2 =>
      m ← bdim_r (length r1) (length r2);
      n ← bdim_r c1 c2;
      Ok (Arr2 n (zip_with (zip_b f n) (stretch m r1) (stretch m r2)))
  end.

(** An elementwise unary operation ([np.sqrt], [np.square]). *)
Definition nd_map {A} (f : A -> A) (a : ndarray A) : ndarray A :=
  match a with
  | Arr0 x => Arr0 (f x)
  | Arr1 v => Arr1 (f <$> v)
  | Arr2 c rs => Arr2 c ((fun r : list A => f <$> r) <$> rs)
  end.

Section Numpy.
Context {A : Type} `{Scalar A}.

Definition zero : A := s_of_Z 0.

Definition axis_error : exn :=
  Raise AxisError "axis 0 is out of bounds for array of dimension 0".

(** [np.sum(a, axis=0)]: the entries along the first axis are added one
    after the other onto the additive identity, as numpy accumulates the
    rows of a row-major matrix.  (In exact arithmetic the order does not
    matter.) *)
Definition np_sum0 (a : ndarray A) : result (ndarray A) :=
  match a with
  | Arr0 _ => Err axis_error
  | Arr1 v => Ok (Arr0 (foldl s_add zero v))
  | Arr2 c rows => Ok (Arr1 (foldl (zip_with s_add) (replicate c zero) rows))
  end.

(** The number of entries along the first axis. *)
Definition count0 (a : ndarray A) : Z :=
  match a with
  | Arr0 _ => 1
  | Arr1 v => Z.of_nat (length v)
  | Arr2 _ rows => Z.of_nat (length rows)
  end.

(** [np.mean(a, axis=0)]: the sum divided by the count. *)
Definition np_mean0 (a : ndarray A) : result (ndarray A) :=
  s ← np_sum0 a;
  nd_binop s_div s (Arr0 (s_of_Z (count0 a))).

(** [np.var(a, axis=0)]: the mean of the squared deviations from the mean
    (numpy's [_var] with [ddof = 0]). *)
Definition np_var0 (a : ndarray A) : result (ndarray A) :=
  arrmean ← np_mean0 a;
  x ← nd_binop s_sub a arrmean;
  x2 ← nd_binop s_mul x x;
  s ← np_sum0 x2;
  nd_binop s_div s (Arr0 (s_of_Z (count0 a))).

Definition np_sqrt : ndarray A -> ndarray A := nd_map s_sqrt.
Definition np_square : ndarray A -> ndarray A := nd_map (fun x => s_mul x x).
Definition np_divide : ndarray A -> ndarray A -> result (ndarray A) := nd_binop s_div.

(** A Python number on one side of an array operation. *)
Definition scalar (k : A) : ndarray A := Arr0 k.

(** [1.0 / N] on Python numbers. *)
Definition py_inv (N : Z) : result A :=
  if decide (N = 0%Z) then Err (Raise ZeroDivisionError "float division by zero")
  else Ok (s_div (s_of_Z 1) (s_of_Z N)).

End Numpy.

(** ** The layer instance *)

(** The attributes of a [BatchNormalizedLayer].  [__init__] assigns
    [input_dim], [output_dim] and [cache]; [gamma] and [beta] exist only once
    something has assigned them (the source leaves their initialisation to a
    placeholder comment), so reading them before that raises
    [AttributeError].  [cache] is a Python list. *)
Record layer (A : Type) := Layer {
  input_dim : Z;
  output_dim : Z;
  gamma : option (ndarray A);
  beta : option (ndarray A);
  cache : list (ndarray A)
}.
Arguments Layer {A} _ _ _ _ _.
Arguments input_dim {A} _.
Arguments output_dim {A} _.
Arguments gamma {A} _.
Arguments beta {A} _.
Arguments cache {A} _.

(** What a method returns to Python code. *)
Inductive pyval (A : Type) :=
| PNone
| PInt (n : Z)
| PStr (s : string)
| PArr (a : ndarray A)
| PList (l : list (ndarray A)).
Arguments PNone {A}.
Arguments PInt {A} n.
Arguments PStr {A} s.
Arguments PArr {A} a.
Arguments PList {A} l.

(** ** Methods: state and exceptions *)

Section Methods.
Context {A : Type} `{Scalar A}.

(** A method body: from the instance to the instance it leaves behind and
    the value returned or the exception raised. *)
Definition Meth (X : Type) : Type := layer A -> layer A * result X.

Definition ret {X} (x : X) : Meth X := fun self => (self, Ok x).

Definition bind {X Y} (m : Meth X) (k : X -> Meth Y) : Meth Y := fun self =>
  match m self with
  | (self', Ok x) => k x self'
  | (self', Err e) => (self', Err e)
  end.

Definition lift {X} (r : result X) : Meth X := fun self => (self, r).

Definition no_attribute (name : string) : exn :=
  Raise AttributeError
    ("'BatchNormalizedLayer' object has no attribute '" +:+ name +:+ "'").

(** [self.name] for an attribute that may not have been assigned. *)
Definition getattr {X} (name : string) (field : layer A -> option X) : Meth X :=
  fun self =>
    (self, match field self with Some v => Ok v | None => Err (no_attribute name) end).

Definition get_cache : Meth (list (ndarray A)) := fun self => (self, Ok (cache self)).

Definition set_cache (c : list (ndarray A)) : Meth unit := fun self =>
  (Layer (input_dim self) (output_dim self) (gamma self) (beta self) c, Ok tt).

Definition set_gamma (g : ndarray A) : Meth unit := fun self =>
  (Layer (input_dim self) (output_dim self) (Some g) (beta self) (cache self), Ok tt).

Definition set_beta (b : ndarray A) : Meth unit := fun self =>
  (Layer (input_dim self) (output_dim self) (gamma self) (Some b) (cache self), Ok tt).

(** [l[i]] on a Python list, for [i >= 0]. *)
Definition index {X} (l : list X) (i : nat) : result X :=
  match l !! i with
  | Some x => Ok x
  | None => Err (Raise IndexError "list index out of range")
  end.

(** [[a, b, c] = l] *)
Definition unpack3 {X} (l : list X) : result (X * X * X) :=
  match l with
  | [a; b; c] => Ok (a, b, c)
  | _ =>
      if decide (length l < 3)
      then Err (Raise ValueError
                  ("not enough values to unpack (expected 3, got "
                     +:+ pretty (length l) +:+ ")"))
      else Err (Raise ValueError "too many values to unpack (expected 3)")
  end.

(** [N, D = a.shape] *)
Definition unpack_shape (a : ndarray A) : result (Z * Z) :=
  match shape a with
  | [n; d] => Ok (Z.of_nat n, Z.of_nat d)
  | s => Err (Raise ValueError
                ("not enough values to unpack (expected 2, got "
                   +:+ pretty (length s) +:+ ")"))
  end.

End Methods.

Arguments Meth A X : clear implicits.

#[export] Instance meth_ret {A} : MRet (Meth A) := fun X => ret.
#[export] Instance meth_bind {A} : MBind (Meth A) := fun X Y k m => bind m k.

(** ** The class [BatchNormalizedLayer] *)

Section BatchNormalizedLayer.
Context {A : Type} `{Scalar A}.

(** [BatchNormalizedLayer(input_dim, output_dim)]: the instance [__init__]
    leaves behind.  No statement of it can raise. *)
Definition __init__ (input_dim output_dim : Z) : result (layer A) :=
  Ok {| input_dim := input_dim;
        output_dim := input_dim;
        gamma := None;
        beta := None;
        cache := [] |}.

(** [fprop]: the statements of the source in their order.  [inputs - mu]
    is computed twice, once for [diff] and once under the division; the
    cache is assigned before [self.gamma] and [self.beta] are read. *)
Definition fprop (inputs : ndarray A) : Meth A (ndarray A) :=
  mu ← lift (np_mean0 inputs);
  sigma2 ← lift (np_var0 inputs);
  s ← lift (nd_binop s_add sigma2 (scalar s_eps));
  let std := np_sqrt s in
  diff ← lift (nd_binop s_sub inputs mu);
  d ← lift (nd_binop s_sub inputs mu);
  uhat ← lift (np_divide d (np_sqrt std));
  _ ← set_cache [std; diff; uhat];
  g ← getattr "gamma" gamma;
  gu ← lift (nd_binop s_mul g uhat);
  b ← getattr "beta" beta;
  y ← lift (nd_binop s_add gu b);
  mret y.

(** [bprop]: the cache is unpacked first, then the shape of [inputs];
    [outputs] is not used.  Each operator of the last expression is one
    step, in Python's order of evaluation. *)
Definition bprop (inputs outputs grads_wrt_outputs : ndarray A) : Meth A (ndarray A) :=
  c ← get_cache;
  '(std, diff, uhat) ← lift (unpack3 c);
  '(N, D) ← lift (unpack_shape inputs);
  g ← getattr "gamma" gamma;
  duhat ← lift (nd_binop s_mul grads_wrt_outputs g);
  (* dvar *)
  p ← lift (nd_binop s_mul duhat uhat);
  sp ← lift (np_sum0 p);
  q ← lift (np_divide sp (np_square std));
  dvar ← lift (nd_binop s_mul (scalar s_neg_half) q);
  (* dmu *)
  sd ← lift (np_sum0 duhat);
  qd ← lift (np_divide sd std);
  dmu ← lift (nd_binop s_mul (scalar (s_of_Z (-1))) qd);
  (* grads_wrt_inputs *)
  t1 ← lift (np_divide duhat std);
  t2 ← lift (nd_binop s_mul (scalar (s_of_Z 2)) dvar);
  t3 ← lift (nd_binop s_mul t2 diff);
  k ← lift (py_inv N);
  t4 ← lift (nd_binop s_mul t3 (scalar k));
  t5 ← lift (nd_binop s_add t1 t4);
  k' ← lift (py_inv N);
  t6 ← lift (nd_binop s_mul dmu (scalar k'));
  grads_wrt_inputs ← lift (nd_binop s_add t5 t6);
  mret grads_wrt_inputs.

(** [grads_wrt_params]: [inputs] is not used; [self.cache[2]] is read
    after the first sum. *)
Definition grads_wrt_params (inputs grads_wrt_outputs : ndarray A)
  : Meth A (list (ndarray A)) :=
  grads_wrt_beta ← lift (np_sum0 grads_wrt_outputs);
  c ← get_cache;
  u ← lift (index c 2);
  p ← lift (nd_binop s_mul grads_wrt_outputs u);
  grads_wrt_gamma ← lift (np_sum0 p);
  mret [grads_wrt_gamma; grads_wrt_beta].

Definition params_penalty : Meth A Z :=
  let params_penalty := 0%Z in
  mret params_penalty.

(** The first [def params(self)] of the class body. *)
Definition params_get : Meth A (list (ndarray A)) :=
  g ← getattr "gamma" gamma;
  b ← getattr "beta" beta;
  mret [g; b].

(** The second [def params(self, values)] of the class body. *)
Definition params_set (values : list (ndarray A)) : Meth A unit :=
  v0 ← lift (index values 0);
  _ ← set_gamma v0;
  v1 ← lift (index values 1);
  _ ← set_beta v1;
  mret tt.

Definition __repr__ : Meth A string := fun self =>
  (self, Ok ("BatchNormalizedLayer(input_dim=" +:+ pretty (input_dim self)
             +:+ ", output_dim=" +:+ pretty (output_dim self) +:+ ")")).

End BatchNormalizedLayer.

(** ** The class body as a namespace *)

(** The functions the class body defines, in source order. *)
Inductive method :=
| m_init | m_fprop | m_bprop | m_grads_wrt_params | m_params_penalty
| m_params_get | m_params_set | m_repr.

Definition class_body : list (string * method) :=
  [ ("__init__", m_init);
    ("fprop", m_fprop);
    ("bprop", m_bprop);
    ("grads_wrt_params", m_grads_wrt_params);
    ("params_penalty", m_params_penalty);
    ("params", m_params_get);
    ("params", m_params_set);
    ("__repr__", m_repr) ].

(** Executing the class body binds each name in turn; a later [def] of a
    name replaces the earlier one. *)
Definition class_dict : gmap string method :=
  foldl (fun ns d => <[d.1 := d.2]> ns) ∅ class_body.

Section Calls.
Context {A : Type} `{Scalar A}.

Definition missing_argument : exn :=
  Raise TypeError "params() missing 1 required positional argument: 'values'".

Definition too_many_arguments (takes given : nat) : exn :=
  Raise TypeError
    ("params() takes " +:+ pretty takes
       +:+ (if decide (takes = 1) then " positional argument but "
            else " positional arguments but ")
       +:+ pretty given +:+ " were given").

(** The call [self.params( *args )], every argument a Python list of
    arrays: the attribute is looked up in the class, then the arguments
    are bound to the parameters of the function found. *)
Definition call_params (args : list (list (ndarray A))) : Meth A (pyval A) :=
  match class_dict !! "params" with
  | Some m_params_get =>
      match args with
      | [] => l ← params_get; mret (PList l)
      | _ => lift (Err (too_many_arguments 1 (S (length args))))
      end
  | Some m_params_set =>
      match args with
      | [] => lift (Err missing_argument)
      | [values] => _ ← params_set values; mret PNone
      | _ => lift (Err (too_many_arguments 2 (S (length args))))
      end
  | _ => lift (Err (no_attribute "params"))
  end.

End Calls.

(** ** Arrays given by their entries *)

(** [vtab D f] is the vector [f 0, ..., f (D-1)] and [tab N D f] the matrix
    with entry [f i j] in row [i] and column [j]; [entry rows i j] reads an
    entry back.  The operations of the array model are computed on this
    form. *)
Definition vtab {X} (D : nat) (f : nat -> X) : list X := f <$> seq 0 D.

Definition tab {X} (N D : nat) (f : nat -> nat -> X) : list (list X) :=
  vtab N (fun i => vtab D (f i)).

Definition entry `{Inhabited X} (rows : list (list X)) (i j : nat) : X :=
  (rows !!! i) !!! j.

(** [sum_over_batch N f] adds [f 0, ..., f (N-1)] in this order, from 0. *)
Definition sum_over_batch `{Scalar A} (N : nat) (f : nat -> A) : A :=
  foldl s_add zero (vtab N f).

Section Vectors.
Context {X : Type}.
Implicit Types (f g : nat -> X) (v : list X).

Lemma length_vtab D f : length (vtab D f) = D.
Proof. by rw /vtab length_fmap length_seq. Qed.

Lemma lookup_vtab D f j : j < D -> vtab D f !! j = Some (f j).
Proof.
  intros Hj. rw /vtab list_lookup_fmap.
  by rw (proj2 (lookup_seq 0 D j j)).
Qed.

Lemma lookup_total_vtab `{!Inhabited X} D f j : j < D -> vtab D f !!! j = f j.
Proof. intros Hj. by apply list_lookup_total_correct, lookup_vtab. Qed.

Lemma vtab_ext D f g : (forall j, j < D -> f j = g j) -> vtab D f = vtab D g.
Proof.
  intros Hfg. apply list_eq; intros j.
  destruct (decide (j < D)) as [Hj|Hj].
  - by rw !lookup_vtab // Hfg.
  - rw !lookup_ge_None_2 ?length_vtab //; lia.
Qed.

Lemma vtab_of_list `{!Inhabited X} v : vtab (length v) (fun j => v !!! j) = v.
Proof.
  apply list_eq; intros j.
  destruct (decide (j < length v)) as [Hj|Hj].
  - by rw lookup_vtab // list_lookup_lookup_total_lt.
  - rw !lookup_ge_None_2 ?length_vtab //; lia.
Qed.

Lemma vtab_fmap {Y} (h : X -> Y) D f : h <$> vtab D f = vtab D (fun j => h (f j)).
Proof. by rw /vtab -list_fmap_compose. Qed.

Lemma vtab_replicate D (x : X) : replicate D x = vtab D (fun _ => x).
Proof.
  apply list_eq; intros j.
  destruct (decide (j < D)) as [Hj|Hj].
  - by rw lookup_vtab // lookup_replicate_2.
  - rw !lookup_ge_None_2 ?length_vtab ?length_replicate //; lia.
Qed.

End Vectors.

Section Tabulate.
Context {X : Type}.

Lemma length_tab N D (a : nat -> nat -> X) : length (tab N D a) = N.
Proof. by rw /tab length_vtab. Qed.

Lemma rect_tab N D (a : nat -> nat -> X) : rect D (tab N D a).
Proof.
  rw /rect /tab /vtab. apply Forall_fmap, Forall_forall.
  intros i _. apply length_vtab.
Qed.

Lemma entry_tab `{!Inhabited X} N D (a : nat -> nat -> X) i j :
  i < N -> j < D -> entry (tab N D a) i j = a i j.
Proof.
  intros Hi Hj. rw /entry /tab.
  by rw lookup_total_vtab // lookup_total_vtab.
Qed.

Lemma tab_ext N D (a b : nat -> nat -> X) :
  (forall i j, i < N -> j < D -> a i j = b i j) -> tab N D a = tab N D b.
Proof.
  intros Hab. apply vtab_ext; intros i Hi.
  apply vtab_ext; intros j Hj. by apply Hab.
Qed.

Lemma tab_of_rows `{!Inhabited X} D (rows : list (list X)) :
  rect D rows -> tab (length rows) D (entry rows) = rows.
Proof.
  intros Hr. rw -{3}(vtab_of_list rows). apply vtab_ext; intros i Hi.
  assert (length (rows !!! i) = D) as <-.
  { eapply (proj1 (Forall_lookup _ _) Hr), list_lookup_lookup_total_lt, Hi. }
  apply vtab_of_list.
Qed.

End Tabulate.

Lemma zip_with_vtab {X Y Z} (h : X -> Y -> Z) D (f : nat -> X) (g : nat -> Y) :
  zip_with h (vtab D f) (vtab D g) = vtab D (fun j => h (f j) (g j)).
Proof.
  rw /vtab zip_with_fmap_l zip_with_fmap_r zip_with_diag.
  done.
Qed.

(** ** Broadcasting and reduction on arrays given by their entries *)

Lemma stretch_length {X} n (l : list X) : length l = n -> stretch n l = l.
Proof. destruct l as [|x [|y l]]; simpl; by intros <-. Qed.

Lemma bdim_r_same n : bdim_r n n = Ok n.
Proof. rw /bdim_r /bdim. by rw decide_True. Qed.

Section Broadcast.
Context {A : Type}.
Implicit Types (f : A -> A -> A) (a b : nat -> nat -> A) (u w : nat -> A).

Lemma zip_b_vtab f D u w :
  zip_b f D (vtab D u) (vtab D w) = vtab D (fun j => f (u j) (w j)).
Proof. by rw /zip_b !stretch_length ?length_vtab // zip_with_vtab. Qed.

Lemma binop_mat_vec f N D a w :
  nd_binop f (Arr2 D (tab N D a)) (Arr1 (vtab D w))
  = Ok (Arr2 D (tab N D (fun i j => f (a i j) (w j)))).
Proof.
  rw /= length_vtab bdim_r_same /=. do 2 f_equal.
  rw /tab vtab_fmap. apply vtab_ext; intros i _. apply zip_b_vtab.
Qed.

Lemma binop_vec_mat f N D u b :
  nd_binop f (Arr1 (vtab D u)) (Arr2 D (tab N D b))
  = Ok (Arr2 D (tab N D (fun i j => f (u j) (b i j)))).
Proof.
  rw /= length_vtab bdim_r_same /=. do 2 f_equal.
  rw /tab vtab_fmap. apply vtab_ext; intros i _. apply zip_b_vtab.
Qed.

Lemma binop_mat_mat f N D a b :
  nd_binop f (Arr2 D (tab N D a)) (Arr2 D (tab N D b))
  = Ok (Arr2 D (tab N D (fun i j => f (a i j) (b i j)))).
Proof.
  rw /= !length_tab !bdim_r_same /=. do 2 f_equal.
  rw !stretch_length ?length_tab // /tab zip_with_vtab.
  apply vtab_ext; intros i _. apply zip_b_vtab.
Qed.

Lemma binop_vec_vec f D u w :
  nd_binop f (Arr1 (vtab D u)) (Arr1 (vtab D w))
  = Ok (Arr1 (vtab D (fun j => f (u j) (w j)))).
Proof. by rw /= !length_vtab bdim_r_same /= zip_b_vtab. Qed.

Lemma binop_vec_scalar f D u k :
  nd_binop f (Arr1 (vtab D u)) (Arr0 k) = Ok (Arr1 (vtab D (fun j => f (u j) k))).
Proof. by rw /= vtab_fmap. Qed.

Lemma binop_scalar_vec f D k w :
  nd_binop f (Arr0 k) (Arr1 (vtab D w)) = Ok (Arr1 (vtab D (fun j => f k (w j)))).
Proof. by rw /= vtab_fmap. Qed.

Lemma binop_mat_scalar f N D a k :
  nd_binop f (Arr2 D (tab N D a)) (Arr0 k)
  = Ok (Arr2 D (tab N D (fun i j => f (a i j) k))).
Proof.
  rw /=. do 2 f_equal. rw /tab vtab_fmap.
  apply vtab_ext; intros i _. by rw vtab_fmap.
Qed.

Lemma nd_map_vec (h : A -> A) D u :
  nd_map h (Arr1 (vtab D u)) = Arr1 (vtab D (fun j => h (u j))).
Proof. by rw /= vtab_fmap. Qed.

Context `{Scalar A}.

Lemma foldl_rows D a (l : list nat) u :
  foldl (zip_with s_add) (vtab D u) ((fun i => vtab D (a i)) <$> l)
  = vtab D (fun j => foldl s_add (u j) ((fun i => a i j) <$> l)).
Proof.
  revert u. induction l as [|i l IH]; intros u; simpl; [done|].
  by rw zip_with_vtab IH.
Qed.

Lemma sum0_mat N D a :
  np_sum0 (Arr2 D (tab N D a))
  = Ok (Arr1 (vtab D (fun j => sum_over_batch N (fun i => a i j)))).
Proof. rw /= vtab_replicate. do 2 f_equal. apply foldl_rows. Qed.

Lemma count0_mat N D a : count0 (Arr2 D (tab N D a)) = Z.of_nat N.
Proof. by rw /= length_tab. Qed.

End Broadcast.

(** ** The methods on a batch given by its entries *)

Create Rewrite HintDb numpy.

Section ClosedForms.
Context {A : Type} `{Scalar A}.
Implicit Types (x g : nat -> nat -> A) (gm bt : nat -> A) (l : layer A).

(** The per-feature quantities [fprop] computes for the batch with entry
    [x i j] in row [i] (of [N]) and column [j]. *)
Definition mean_of (N : nat) x (j : nat) : A :=
  s_div (sum_over_batch N (fun i => x i j)) (s_of_Z (Z.of_nat N)).

Definition var_of (N : nat) x (j : nat) : A :=
  s_div (sum_over_batch N (fun i =>
           s_mul (s_sub (x i j) (mean_of N x j)) (s_sub (x i j) (mean_of N x j))))
        (s_of_Z (Z.of_nat N)).

Definition std_of (N : nat) x (j : nat) : A :=
  s_sqrt (s_add (var_of N x j) s_eps).

Definition diff_of (N : nat) x (i j : nat) : A :=
  s_sub (x i j) (mean_of N x j).

Definition uhat_of (N : nat) x (i j : nat) : A :=
  s_div (s_sub (x i j) (mean_of N x j)) (s_sqrt (std_of N x j)).

Lemma bind_lift {X Y} (r : result X) (k : X -> Meth A Y) l :
  (mbind k (lift r)) l = match r with Ok v => k v l | Err e => (l, Err e) end.
Proof. by destruct r. Qed.

Lemma bind_getattr {X Y} name (field : layer A -> option X) (k : X -> Meth A Y) l v :
  field l = Some v -> (mbind k (getattr name field)) l = k v l.
Proof. intros Hf. by rw /mbind /meth_bind /bind /getattr Hf. Qed.

Lemma mean0_mat N D x :
  np_mean0 (Arr2 D (tab N D x)) = Ok (Arr1 (vtab D (mean_of N x))).
Proof.
  rw /np_mean0 sum0_mat count0_mat.
  change (nd_binop s_div
            (Arr1 (vtab D (fun j => sum_over_batch N (fun i => x i j))))
            (Arr0 (s_of_Z (Z.of_nat N)))
          = Ok (Arr1 (vtab D (mean_of N x)))).
  by rw binop_vec_scalar.
Qed.

Lemma var0_mat N D x :
  np_var0 (Arr2 D (tab N D x)) = Ok (Arr1 (vtab D (var_of N x))).
Proof.
  rw /np_var0 mean0_mat count0_mat. cbn [mbind result_bind].
  rw binop_mat_vec. cbn [mbind result_bind].
  rw binop_mat_mat. cbn [mbind result_bind].
  rw sum0_mat. cbn [mbind result_bind].
  by rw binop_vec_scalar.
Qed.

Lemma bind_set_cache {Y} c (k : unit -> Meth A Y) l :
  (mbind k (set_cache c)) l
  = k tt (Layer (input_dim l) (output_dim l) (gamma l) (beta l) c).
Proof. done. Qed.

Lemma bind_get_cache {Y} (k : list (ndarray A) -> Meth A Y) l :
  (mbind k get_cache) l = k (cache l) l.
Proof. done. Qed.

(** The cache [fprop] leaves behind for this batch. *)
Definition fprop_cache (N D : nat) x : list (ndarray A) :=
  [ Arr1 (vtab D (std_of N x));
    Arr2 D (tab N D (diff_of N x));
    Arr2 D (tab N D (uhat_of N x)) ].

Lemma unpack3_triple {X} (a b c : X) : unpack3 [a; b; c] = Ok (a, b, c).
Proof. done. Qed.

Lemma index_triple {X} (a b c : X) : index [a; b; c] 2 = Ok c.
Proof. done. Qed.

Lemma unpack_shape_mat N D x :
  unpack_shape (Arr2 D (tab N D x)) = Ok (Z.of_nat N, Z.of_nat D).
Proof. by rw /unpack_shape /= length_tab. Qed.

Lemma py_inv_pos (N : nat) :
  N <> 0 -> py_inv (Z.of_nat N) = Ok (s_div (s_of_Z 1) (s_of_Z (Z.of_nat N))).
Proof. intros HN. rw /py_inv decide_False //. lia. Qed.

(** Running a method body on such a batch: every array operation is
    rewritten to its result and the bind that consumes it is reduced. *)
Hint Rewrite @bind_lift @bind_set_cache @bind_get_cache
  @mean0_mat @var0_mat @sum0_mat
  @binop_mat_vec @binop_vec_mat @binop_mat_mat @binop_vec_vec
  @binop_vec_scalar @binop_scalar_vec @binop_mat_scalar @nd_map_vec
  @unpack3_triple @index_triple @unpack_shape_mat : numpy.

Ltac numpy_run :=
  rw /scalar /np_divide /np_sqrt /np_square;
  repeat progress (autorewrite with numpy; cbv beta iota zeta).

Lemma fprop_tab N D x gm bt l :
  gamma l = Some (Arr1 (vtab D gm)) ->
  beta l = Some (Arr1 (vtab D bt)) ->
  fprop (Arr2 D (tab N D x)) l
  = (Layer (input_dim l) (output_dim l) (gamma l) (beta l) (fprop_cache N D x),
     Ok (Arr2 D (tab N D (fun i j => s_add (s_mul (gm j) (uhat_of N x i j)) (bt j))))).
Proof.
  intros Hg Hb. rw /fprop. numpy_run.
  rw (bind_getattr _ gamma _ _ (Arr1 (vtab D gm))) //. numpy_run.
  rw (bind_getattr _ beta _ _ (Arr1 (vtab D bt))) //. numpy_run.
  done.
Qed.

(** The cache is written before [gamma] and [beta] are read, so it is
    there whether or not the call succeeds; nothing else is written. *)
Lemma fprop_state_tab N D x l :
  (fprop (Arr2 D (tab N D x)) l).1
  = Layer (input_dim l) (output_dim l) (gamma l) (beta l) (fprop_cache N D x).
Proof.
  rw /fprop. numpy_run.
  rw /mbind /meth_bind /bind /getattr /lift /=.
  destruct (gamma l) as [g|]; [|done].
  destruct (nd_binop s_mul g _); [|done].
  destruct (beta l) as [b|]; [|done].
  by destruct (nd_binop s_add _ b).
Qed.

(** The quantities [bprop] computes from a cache [std], [diff], [uhat],
    the scale [gm] and the output gradients [g], in the order and with the
    operations of the source. *)
Definition duhat_of g gm (i j : nat) : A := s_mul (g i j) (gm j).

Definition dvar_of (N : nat) (std : nat -> A) uhat g gm (j : nat) : A :=
  s_mul s_neg_half
    (s_div (sum_over_batch N (fun i => s_mul (duhat_of g gm i j) (uhat i j)))
           (s_mul (std j) (std j))).

Definition dmu_of (N : nat) (std : nat -> A) g gm (j : nat) : A :=
  s_mul (s_of_Z (-1)) (s_div (sum_over_batch N (fun i => duhat_of g gm i j)) (std j)).

Definition grads_wrt_inputs_of (N : nat) (std : nat -> A) diff uhat g gm (i j : nat) : A :=
  s_add
    (s_add (s_div (duhat_of g gm i j) (std j))
           (s_mul (s_mul (s_mul (s_of_Z 2) (dvar_of N std uhat g gm j)) (diff i j))
                  (s_div (s_of_Z 1) (s_of_Z (Z.of_nat N)))))
    (s_mul (dmu_of N std g gm j) (s_div (s_of_Z 1) (s_of_Z (Z.of_nat N)))).

Lemma bprop_tab N D x std diff uhat g gm outputs l :
  N <> 0 ->
  cache l = [Arr1 (vtab D std); Arr2 D (tab N D diff); Arr2 D (tab N D uhat)] ->
  gamma l = Some (Arr1 (vtab D gm)) ->
  bprop (Arr2 D (tab N D x)) outputs (Arr2 D (tab N D g)) l
  = (l, Ok (Arr2 D (tab N D (grads_wrt_inputs_of N std diff uhat g gm)))).
Proof.
  intros HN Hc Hg. rw /bprop. numpy_run. rw Hc. numpy_run.
  rw (bind_getattr _ gamma _ _ (Arr1 (vtab D gm))) //. numpy_run.
  rw !py_inv_pos //. numpy_run.
  done.
Qed.

Lemma grads_wrt_params_tab N D std diff uhat g inputs l :
  cache l = [std; diff; Arr2 D (tab N D uhat)] ->
  grads_wrt_params inputs (Arr2 D (tab N D g)) l
  = (l, Ok [ Arr1 (vtab D (fun j => sum_over_batch N (fun i => s_mul (g i j) (uhat i j))));
             Arr1 (vtab D (fun j => sum_over_batch N (fun i => g i j))) ]).
Proof.
  intros Hc. rw /grads_wrt_params. numpy_run. rw Hc. numpy_run.
  done.
Qed.

End ClosedForms.

(** ** Batches as lists of rows *)

Lemma rows_as_tab `{Inhabited X} N D (rows : list (list X)) :
  length rows = N -> rect D rows -> rows = tab N D (entry rows).
Proof. intros <- Hr. by rw tab_of_rows. Qed.

Lemma vec_as_vtab `{Inhabited X} D (v : list X) :
  length v = D -> v = vtab D (fun j => v !!! j).
Proof. intros <-. by rw vtab_of_list. Qed.

Lemma sum_over_batch_ext `{Scalar A} N (f g : nat -> A) :
  (forall i, i < N -> f i = g i) -> sum_over_batch N f = sum_over_batch N g.
Proof. intros Hfg. rw /sum_over_batch. f_equal. by apply vtab_ext. Qed.

(** ** Forward pass *)

Section Forward.
Context {A : Type} `{Scalar A}.

(** What [fprop] does on a batch of [N] rows and [D] columns, whatever the
    parameters: the cache holds [std], [diff] and [uhat] of the shapes of
    the batch, and [uhat] is [diff] divided by the square root of [std]. *)
Lemma fprop_cache_spec (N D : nat) (rows : list (list A)) (l : layer A) :
  length rows = N -> rect D rows ->
  exists std diff uhat,
    (fprop (Arr2 D rows) l).1
    = Layer (input_dim l) (output_dim l) (gamma l) (beta l)
            [Arr1 std; Arr2 D diff; Arr2 D uhat]
    /\ np_var0 (Arr2 D rows) = Ok (Arr1 (vtab D (var_of N (entry rows))))
    /\ std = vtab D (std_of N (entry rows))
    /\ diff = tab N D (diff_of N (entry rows))
    /\ uhat = tab N D (uhat_of N (entry rows)).
Proof.
  intros Hn Hr. rw {1 2}(rows_as_tab N D rows) //.
  rw fprop_state_tab var0_mat. by eexists _, _, _.
Qed.


End Forward.

(** ** Parameter gradients *)

Section ParameterGradients.
Context {A : Type} `{Scalar A}.


(** What [grads_wrt_params] returns, as a function of the output gradients
    and of the third item of the cache, if there is one. *)
Definition grads_from (g : ndarray A) (u : option (ndarray A))
  : result (list (ndarray A)) :=
  grads_wrt_beta ← np_sum0 g;
  u ← (match u with
       | Some u => Ok u
       | None => Err (Raise IndexError "list index out of range")
       end);
  p ← nd_binop s_mul g u;
  grads_wrt_gamma ← np_sum0 p;
  Ok [grads_wrt_gamma; grads_wrt_beta].

(** C10. [grads_wrt_params] never looks at its [inputs] argument: two
    calls that differ only in it give the same result and leave the same
    instance behind, errors included.  The result is determined by the
    output gradients and the cached [uhat] alone, and the instance is left
    as it was. *)
Theorem C10_grads_wrt_params_ignores_inputs
    (inputs1 inputs2 grads_wrt_outputs : ndarray A) (l : layer A) :
  grads_wrt_params inputs1 grads_wrt_outputs l
  = grads_wrt_params inputs2 grads_wrt_outputs l
  /\ grads_wrt_params inputs1 grads_wrt_outputs l
     = (l, grads_from grads_wrt_outputs (cache l !! 2)).
Proof.
  split; [reflexivity|].
  rw /grads_wrt_params /grads_from bind_lift.
  destruct (np_sum0 grads_wrt_outputs) as [gb|e]; [|done].
  rw /= bind_get_cache bind_lift /index.
  destruct (cache l !! 2) as [u|]; [|done].
  rw /= bind_lift. destruct (nd_binop s_mul grads_wrt_outputs u) as [p|e]; [|done].
  rw /= bind_lift. by destruct (np_sum0 p).
Qed.

End ParameterGradients.

(** ** Construction, the cache before any forward pass, and the parameters *)

(** Whether an exception says, by its message, that something was not
    initialised. *)
Definition explicit_not_initialized (e : exn) : bool :=
  match String.index 0 "not initialized" (exn_msg e) with
  | Some _ => true
  | None => false
  end.

Example explicit_not_initialized_example :
  explicit_not_initialized
    (Raise ValueError "layer not initialized: call fprop first") = true.
Proof. reflexivity. Qed.

(** The calls a client can make on an instance. *)
Inductive call (A : Type) :=
| call_fprop (inputs : ndarray A)
| call_bprop (inputs outputs grads_wrt_outputs : ndarray A)
| call_grads_wrt_params (inputs grads_wrt_outputs : ndarray A)
| call_params_penalty
| call_params_with (args : list (list (ndarray A)))
| call_repr.
Arguments call_fprop {A} inputs.
Arguments call_bprop {A} inputs outputs grads_wrt_outputs.
Arguments call_grads_wrt_params {A} inputs grads_wrt_outputs.
Arguments call_params_penalty {A}.
Arguments call_params_with {A} args.
Arguments call_repr {A}.

Section Instance.
Context {A : Type} `{Scalar A}.

Definition exec (c : call A) : Meth A (pyval A) :=
  match c with
  | call_fprop inputs => y ← fprop inputs; mret (PArr y)
  | call_bprop inputs outputs g => dx ← bprop inputs outputs g; mret (PArr dx)
  | call_grads_wrt_params inputs g => gs ← grads_wrt_params inputs g; mret (PList gs)
  | call_params_penalty => p ← params_penalty; mret (PInt p)
  | call_params_with args => call_params args
  | call_repr => s ← __repr__; mret (PStr s)
  end.

(** The instance after a sequence of calls, whether or not they raise. *)
Definition after (cs : list (call A)) (l : layer A) : layer A :=
  foldl (fun l c => (exec c l).1) l cs.

(** [gamma.length == beta.length == input_dim] and
    [output_dim == input_dim]. *)
Definition invariant (l : layer A) : Prop :=
  output_dim l = input_dim l
  /\ (exists gm, gamma l = Some (Arr1 gm) /\ Z.of_nat (length gm) = input_dim l)
  /\ (exists bt, beta l = Some (Arr1 bt) /\ Z.of_nat (length bt) = input_dim l).

(** *** State left by each method *)

Lemma bind_fst {X Y} (m : Meth A X) (k : X -> Meth A Y) l :
  (forall x l', (k x l').1 = l') -> ((mbind k m) l).1 = (m l).1.
Proof.
  intros Hk. rw /mbind /meth_bind /bind.
  destruct (m l) as [l' [x|e]]; [apply Hk|done].
Qed.

Lemma lift_bind_fst {X Y} (r : result X) (k : X -> Meth A Y) l :
  (forall x, (k x l).1 = l) -> ((mbind k (lift r)) l).1 = l.
Proof. intros Hk. rw bind_lift. destruct r; [apply Hk|done]. Qed.

Lemma getattr_bind_fst {X Y} name (field : layer A -> option X) (k : X -> Meth A Y) l :
  (forall x, (k x l).1 = l) -> ((mbind k (getattr name field)) l).1 = l.
Proof.
  intros Hk. rw /mbind /meth_bind /bind /getattr.
  destruct (field l); [apply Hk|done].
Qed.

Ltac pure_method :=
  repeat first
    [ apply lift_bind_fst; intros ?
    | apply getattr_bind_fst; intros ?
    | rw bind_get_cache
    | match goal with |- context [match ?p with pair _ _ => _ end] => destruct p end
    | done ].

Lemma bprop_pure inputs outputs g l : (bprop inputs outputs g l).1 = l.
Proof. rw /bprop. pure_method. Qed.

Lemma grads_wrt_params_pure inputs g l : (grads_wrt_params inputs g l).1 = l.
Proof. rw /grads_wrt_params. pure_method. Qed.

(** [fprop] writes the cache at most. *)
Lemma fprop_frame inputs l :
  let l' := (fprop inputs l).1 in
  input_dim l' = input_dim l /\ output_dim l' = output_dim l
  /\ gamma l' = gamma l /\ beta l' = beta l.
Proof.
  rw /fprop /mbind /meth_bind /bind /lift /getattr /set_cache /=.
  repeat match goal with
         | |- context [match ?r with Ok _ => _ | Err _ => _ end] => destruct r
         | |- context [match ?o with Some _ => _ | None => _ end] => destruct o
         end; done.
Qed.

(** The setter writes [gamma], then [beta], from the first two items. *)
Lemma params_set_state values (l : layer A) :
  (params_set values l).1
  = match values !! 0, values !! 1 with
    | Some g, Some b => Layer (input_dim l) (output_dim l) (Some g) (Some b) (cache l)
    | Some g, None => Layer (input_dim l) (output_dim l) (Some g) (beta l) (cache l)
    | None, _ => l
    end.
Proof.
  rw /params_set /mbind /meth_bind /bind /lift /index /set_gamma /set_beta /=.
  destruct values as [|g [|b values]]; done.
Qed.

Lemma class_dict_params : class_dict !! "params" = Some m_params_set.
Proof. by vm_compute. Qed.

Lemma exec_state (c : call A) l :
  (exec c l).1
  = match c with
    | call_fprop inputs => (fprop inputs l).1
    | call_params_with [values] => (params_set values l).1
    | _ => l
    end.
Proof.
  destruct c as [inputs|inputs outputs g|inputs g| |args|]; simpl.
  - by apply bind_fst.
  - rw bind_fst //. apply bprop_pure.
  - rw bind_fst //. apply grads_wrt_params_pure.
  - done.
  - rw /call_params class_dict_params.
    destruct args as [|values [|? ?]]; [done| |done].
    by apply bind_fst.
  - done.
Qed.

Lemma exec_dims (c : call A) l :
  input_dim (exec c l).1 = input_dim l /\ output_dim (exec c l).1 = output_dim l.
Proof.
  rw exec_state. destruct c as [inputs| | | |[|values [|? ?]]|]; try done.
  - by destruct (fprop_frame inputs l) as (? & ? & _).
  - rw params_set_state. by destruct (values !! 0), (values !! 1).
Qed.

Lemma after_dims (cs : list (call A)) l :
  input_dim (after cs l) = input_dim l /\ output_dim (after cs l) = output_dim l.
Proof.
  revert l. induction cs as [|c cs IH]; intros l; [done|].
  simpl. destruct (IH (exec c l).1) as [-> ->]. apply exec_dims.
Qed.

(** C6, as the code has it.  Construction never raises: whatever
    [output_dim] is passed, equal to [input_dim] or not, the instance is
    returned with [output_dim] set to [input_dim]. *)
Theorem C6_init_overrides_output_dim (i o : Z) :
  exists l : layer A,
    __init__ i o = Ok l /\ input_dim l = i /\ output_dim l = i /\ cache l = [].
Proof. by eexists. Qed.

(** C7, as the code has it.  [output_dim == input_dim] holds after
    construction, and no sequence of calls changes either; construction
    leaves [gamma] and [beta] unassigned; every call but the one-argument
    [params] leaves them as they are; and that call stores the first two
    items it is given, unchecked, so that the invariant holds afterwards
    exactly when the dimensions agreed and the two items are vectors of
    length [input_dim]. *)
Theorem C7_dims_fixed_params_as_given :
  (forall i o, exists l : layer A,
      __init__ i o = Ok l /\ output_dim l = input_dim l
      /\ gamma l = None /\ beta l = None)
  /\ (forall (cs : list (call A)) l,
        input_dim (after cs l) = input_dim l
        /\ output_dim (after cs l) = output_dim l)
  /\ (forall (c : call A) l,
        match c with
        | call_params_with [values] => (exec c l).1 = (params_set values l).1
        | _ => gamma (exec c l).1 = gamma l /\ beta (exec c l).1 = beta l
        end)
  /\ (forall (g b : ndarray A) l,
        invariant (exec (call_params_with [[g; b]]) l).1
        <-> output_dim l = input_dim l
            /\ (exists gm, g = Arr1 gm /\ Z.of_nat (length gm) = input_dim l)
            /\ (exists bt, b = Arr1 bt /\ Z.of_nat (length bt) = input_dim l)).
Proof.
  split; [by eexists|]. split; [apply after_dims|]. split.
  - intros c l. rw exec_state.
    destruct c as [inputs| | | |[|values [|? ?]]|]; try done.
    by destruct (fprop_frame inputs l) as (_ & _ & ? & ?).
  - intros g b l. rw exec_state params_set_state /invariant /=.
    split.
    + intros (? & (gm & [= ->] & ?) & (bt & [= ->] & ?)). eauto 10.
    + intros (? & (gm & -> & ?) & (bt & -> & ?)). eauto 10.
Qed.

(** C8, as the code has it.  On a freshly constructed instance both
    methods fail on the empty cache list itself: [bprop] when it unpacks
    it, [grads_wrt_params] when it indexes it (after summing the output
    gradients, which a rank-0 array refuses).  The instance is left as it
    was. *)
Theorem C8_fresh_cache_errors (i o : Z) :
  exists l : layer A,
    __init__ i o = Ok l
    /\ (forall inputs outputs g,
          bprop inputs outputs g l
          = (l, Err (Raise ValueError
                       "not enough values to unpack (expected 3, got 0)")))
    /\ (forall inputs g,
          grads_wrt_params inputs g l
          = (l, Err (match g with
                     | Arr0 _ => axis_error
                     | _ => Raise IndexError "list index out of range"
                     end))).
Proof.
  eexists. split; [done|]. split; [done|].
  intros inputs g. by destruct g.
Qed.

(** C9.  The class body defines [params] twice; the name is bound to the
    second definition, the setter.  So the call [params()] of the accessor
    raises [TypeError] on every instance and returns no parameters. *)
Theorem C9_params_accessor_shadowed (l : layer A) :
  class_dict !! "params" = Some m_params_set
  /\ exec (call_params_with []) l = (l, Err missing_argument).
Proof. split; [apply class_dict_params|]. by rw /= /call_params class_dict_params. Qed.

(** [params_penalty] returns 0 and leaves the instance as it was. *)
Lemma params_penalty_zero (l : layer A) :
  exec call_params_penalty l = (l, Ok (PInt 0)).
Proof. done. Qed.

(** The setter itself overwrites both parameters. *)
Lemma params_setter_overwrites (g b : ndarray A) l :
  exec (call_params_with [[g; b]]) l
  = (Layer (input_dim l) (output_dim l) (Some g) (Some b) (cache l), Ok PNone).
Proof. by rw /= /call_params class_dict_params. Qed.

(** The body of the shadowed accessor, had it been reachable, would have
    made the round trip the identity. *)
Lemma params_round_trip_of_shadowed_body (g b : ndarray A) l :
  gamma l = Some g -> beta l = Some b ->
  exists values,
    params_get l = (l, Ok values) /\ params_set values l = (l, Ok tt).
Proof.
  destruct l as [i o gm bt c]; simpl. intros -> ->. by exists [g; b].
Qed.

End Instance.

(** ** The forward and backward pass over the real numbers *)

Section Reals.
Implicit Types (rows gs : list (list R)) (l : layer R).
Local Open Scope R_scope.

Lemma foldl_Rplus_nonneg (f : nat -> R) (idx : list nat) (acc : R) :
  (forall i, 0 <= f i) -> 0 <= acc -> 0 <= foldl Rplus acc (f <$> idx).
Proof.
  intros Hf. revert acc. induction idx as [|i idx IH]; intros acc Hacc; simpl.
  - done.
  - apply IH. specialize (Hf i). lra.
Qed.

Lemma sum_over_batch_nonneg N (f : nat -> R) :
  (forall i, 0 <= f i) -> 0 <= sum_over_batch N f.
Proof.
  intros Hf. apply foldl_Rplus_nonneg; [done|]. rw /zero /=. lra.
Qed.

Lemma count_pos (N : nat) : (1 <= N)%nat -> 0 < IZR (Z.of_nat N).
Proof. intros HN. apply IZR_lt. lia. Qed.

Lemma var_of_nonneg N (x : nat -> nat -> R) j :
  (1 <= N)%nat -> 0 <= var_of N x j.
Proof.
  intros HN. rw /var_of /=. apply Rmult_le_pos.
  - apply sum_over_batch_nonneg; intros i. apply Rle_0_sqr.
  - left. by apply Rinv_0_lt_compat, count_pos.
Qed.

Lemma std_of_pos N (x : nat -> nat -> R) j :
  (1 <= N)%nat -> 0 < std_of N x j.
Proof.
  intros HN. rw /std_of. apply sqrt_lt_R0.
  change (0 < var_of N x j + 1e-8).
  pose proof (var_of_nonneg N x j HN). lra.
Qed.


Lemma div_sqrt_eq_div_iff (d s : R) :
  0 < s -> d / sqrt s = d / s <-> d = 0 \/ s = 1.
Proof.
  intros Hs. pose proof (sqrt_lt_R0 s Hs) as Hq.
  pose proof (sqrt_sqrt s (Rlt_le _ _ Hs)) as Hqq.
  split.
  - intros Heq.
    assert (d * s = d * sqrt s) as Hx.
    { apply (Rmult_eq_reg_r (/ sqrt s * / s)).
      - transitivity (d / sqrt s); [field; lra|].
        rw Heq. field; lra.
      - apply Rmult_integral_contrapositive_currified;
          apply Rinv_neq_0_compat; lra. }
    destruct (Req_dec d 0) as [Hd|Hd]; [by left|right].
    apply Rmult_eq_reg_l in Hx; [|done]. nra.
  - intros [->| ->]; [rw /Rdiv; ring|by rw sqrt_1].
Qed.

(** Over the reals, for a batch with at least one row: the cached [uhat]
    agrees with [diff / std] at an entry only where the entry equals the
    mean of its feature or the standard deviation of the feature is 1. *)
Lemma uhat_eq_diff_over_std_iff (N D : nat) rows l i j :
  length rows = N -> (1 <= N)%nat -> rect D rows -> (i < N)%nat -> (j < D)%nat ->
  exists std diff uhat,
    cache (fprop (Arr2 D rows) l).1 = [Arr1 std; Arr2 D diff; Arr2 D uhat]
    /\ (entry uhat i j = entry diff i j / std !!! j
        <-> entry diff i j = 0 \/ std !!! j = 1).
Proof.
  intros Hn HN Hr Hi Hj.
  destruct (fprop_cache_spec N D rows l Hn Hr)
    as (std & diff & uhat & Hl' & _ & -> & -> & ->).
  do 3 eexists. split; [by rw Hl'|].
  rw !entry_tab // lookup_total_vtab //.
  apply (div_sqrt_eq_div_iff (diff_of N (entry rows) i j)), std_of_pos, HN.
Qed.

(** The gradient formulas in the words of the specification. *)
Definition spec_duhat gs (gm : list R) (i j : nat) : R :=
  entry gs i j * gm !!! j.

Definition spec_dvar (N : nat) (std : list R) (uhat : list (list R)) gs gm (j : nat) : R :=
  -0.5 * sum_over_batch N (fun i => spec_duhat gs gm i j * entry uhat i j)
  / Rsqr (std !!! j).

Definition spec_dmu (N : nat) (std : list R) gs gm (j : nat) : R :=
  - sum_over_batch N (fun i => spec_duhat gs gm i j) / std !!! j.

Definition spec_grads_wrt_inputs (N : nat) (std : list R) (diff uhat : list (list R))
    gs gm (i j : nat) : R :=
  spec_duhat gs gm i j / std !!! j
  + 2 * spec_dvar N std uhat gs gm j * entry diff i j / INR N
  + spec_dmu N std gs gm j / INR N.


End Reals.

(** ** The methods on binary64 *)

Section Binary64.
Local Open Scope float_scope.

(** The literal [1e-8] denotes the double nearest to 10^-8, which is the
    correctly rounded quotient of 1 by 10^8. *)
Example eps_literal : s_eps = PrimFloat.div 1 100000000.
Proof. by vm_compute. Qed.

(** One feature, scale 1 and shift 0. *)
Definition unit_layer : layer float :=
  Layer 1 1 (Some (Arr1 [1])) (Some (Arr1 [0])) [].

(** A batch of two rows, with mean 2 and variance 4. *)
Definition batch_0_4 : ndarray float := Arr2 1 [[0]; [4]].

(** C1.  On the batch [[0], [4]] the cached [uhat] is [diff] divided by
    [sqrt std], of magnitude above 1.41, and not [diff / std], whose
    magnitude is below 1: the code divides by the square root of the
    standard deviation. *)
Theorem C1_uhat_divides_by_sqrt_std :
  exists std diff u0 u1 q0 q1,
    cache (fprop batch_0_4 unit_layer).1 = [std; diff; Arr2 1 [[u0]; [u1]]]
    /\ np_divide diff (np_sqrt std) = Ok (Arr2 1 [[u0]; [u1]])
    /\ np_divide diff std = Ok (Arr2 1 [[q0]; [q1]])
    /\ (1.25 <? abs u0) = true /\ (1.25 <? abs u1) = true
    /\ (abs q0 <? 1) = true /\ (abs q1 <? 1) = true
    /\ (u0 =? q0) = false /\ (u1 =? q1) = false.
Proof. vm_compute. do 6 eexists. repeat split. Qed.

(** The largest power of two in binary64, about 8.99e307. *)
Definition huge : float := 0x1p+1023.


(** On a batch of variance zero the guard does its work. *)
Example fprop_zero_variance :
  fprop (Arr2 1 [[3]; [3]]) unit_layer
  = (Layer 1 1 (Some (Arr1 [1])) (Some (Arr1 [0]))
           [Arr1 [PrimFloat.sqrt s_eps]; Arr2 1 [[0]; [0]]; Arr2 1 [[0]; [0]]],
     Ok (Arr2 1 [[0]; [0]])).
Proof. by vm_compute. Qed.

(** C6: construction with [input_dim = 3] and [output_dim = 5] returns an
    instance, of [output_dim] 3. *)
Lemma C6_init_3_5_succeeds :
  @__init__ float 3 5 = Ok (Layer 3 3 None None []).
Proof. reflexivity. Qed.

(** C7: an instance that satisfies the invariant (constructed with
    [input_dim = 2], then given parameters of length 2) stops satisfying it
    when the setter is given vectors of another length. *)
Lemma C7_setter_breaks_lengths :
  exists l0 : layer float,
    __init__ 2 2 = Ok l0
    /\ let l := after [call_params_with [[Arr1 [1; 1]; Arr1 [0; 0]]]] l0 in
       let l' := after [call_params_with [[Arr1 [1]; Arr1 [0]]]] l in
       invariant l
       /\ gamma l' = Some (Arr1 [1]) /\ input_dim l' = 2%Z
       /\ ~ invariant l'.
Proof.
  eexists. split; [reflexivity|].
  split; [|split; [done|split; [done|]]].
  - split; [done|]. split; by eexists.
  - intros (_ & (gm & Hg & Hlen) & _). vm_compute in Hg.
    injection Hg as <-. vm_compute in Hlen. discriminate.
Qed.

(** C8: on a fresh instance both methods raise a built-in error about the
    list, whose message does not speak of initialisation. *)
Lemma C8_fresh_errors_not_explicit :
  exists l e1 e2,
    @__init__ float 3 3 = Ok l
    /\ (bprop batch_0_4 batch_0_4 batch_0_4 l).2 = Err e1
    /\ exn_cls e1 = ValueError /\ explicit_not_initialized e1 = false
    /\ (grads_wrt_params batch_0_4 batch_0_4 l).2 = Err e2
    /\ exn_cls e2 = IndexError /\ explicit_not_initialized e2 = false.
Proof. do 3 eexists. repeat split. Qed.

End Binary64.

(** ** The theorems at concrete batches *)

Section Instances.

Lemma rect_0_4 : rect 1 [[0%float]; [4%float]].
Proof. repeat constructor. Defined.

Lemma rect_1_2 : rect 1 [[1%float]; [2%float]].
Proof. repeat constructor. Defined.



(** A batch of two equal rows: the variance is zero. *)
Definition constant_batch : list (list R) := [[3%R]; [3%R]].

Lemma rect_constant : rect 1 constant_batch.
Proof. repeat constructor. Defined.

Lemma one_le_two : 1 <= 2.
Proof. repeat constructor. Defined.


Definition real_batch : list (list R) := [[0%R]; [4%R]].
Definition real_grads : list (list R) := [[1%R]; [2%R]].
Definition real_layer : layer R := Layer 1 1 (Some (Arr1 [1%R])) (Some (Arr1 [0%R])) [].

Lemma rect_real_batch : rect 1 real_batch.
Proof. repeat constructor. Defined.

Lemma rect_real_grads : rect 1 real_grads.
Proof. repeat constructor. Defined.


End Instances.

(** ** Further properties of the methods: errors, edges and state *)

Section Protocol.
Context {A : Type} `{Scalar A}.

Hint Rewrite (@bind_lift A H) (@bind_set_cache A H) (@bind_get_cache A H)
  @mean0_mat @var0_mat @sum0_mat
  @binop_mat_vec @binop_vec_mat @binop_mat_mat @binop_vec_vec
  @binop_vec_scalar @binop_scalar_vec @binop_mat_scalar @nd_map_vec
  @unpack3_triple @index_triple (@unpack_shape_mat A H) : numpy.

Ltac numpy_step :=
  rw /scalar /np_divide /np_sqrt /np_square;
  repeat progress (autorewrite with numpy; cbv beta iota zeta).

(** The calls that only read the instance. *)
Definition read_only (c : call A) : bool :=
  match c with
  | call_fprop _ => false
  | call_params_with [_] => false
  | _ => true
  end.

(** [fprop] on an instance straight from the constructor: the statistics
    are computed and cached, then reading [self.gamma] raises
    [AttributeError]; the cache it leaves serves a following
    [grads_wrt_params], which succeeds. *)
Theorem fprop_before_params_caches_then_raises
    (i o : Z) (N D : nat) (rows gs : list (list A)) (inputs : ndarray A) :
  length rows = N -> rect D rows -> length gs = N -> rect D gs ->
  exists l0 l1 grads,
    __init__ i o = Ok l0
    /\ cache l0 = []
    /\ fprop (Arr2 D rows) l0 = (l1, Err (no_attribute "gamma"))
    /\ length (cache l1) = 3
    /\ grads_wrt_params inputs (Arr2 D gs) l1 = (l1, Ok grads)
    /\ length grads = 2.
Proof.
  intros Hn Hr Hgn Hgr.
  assert (rows = tab N D (entry rows)) as Hx by by apply rows_as_tab.
  assert (gs = tab N D (entry gs)) as Hg by by apply rows_as_tab.
  eexists _, (Layer i i None None (fprop_cache N D (entry rows))), _.
  split; [reflexivity|]. split; [done|]. split.
  { rw {1}Hx /fprop. numpy_step. by rw /mbind /meth_bind /bind /getattr /=. }
  split; [done|].
  split; [rw {1}Hg; eapply (grads_wrt_params_tab N D); reflexivity|done].
Qed.

(** A sequence of calls that are all [bprop], [grads_wrt_params],
    [params_penalty], [__repr__] or a [params] call with the wrong number of
    arguments leaves the instance exactly as it was, whether the calls
    succeed or raise; so the cache of the last forward pass survives them
    and a [bprop] after them returns what it would have returned before. *)
Theorem read_only_calls_keep_instance
    (cs : list (call A)) (l : layer A) (inputs outputs g : ndarray A) :
  forallb read_only cs = true ->
  after cs l = l
  /\ bprop inputs outputs g (after cs l) = bprop inputs outputs g l.
Proof.
  intros Hcs. assert (after cs l = l) as ->; [|done].
  revert l. induction cs as [|c cs IH]; intros l; [done|].
  simpl in Hcs. apply andb_prop in Hcs as [Hc Hcs].
  simpl. rw exec_state.
  destruct c as [x| | | |[|v [|? ?]]|]; try done; by apply IH.
Qed.

(** What [fprop] does to the cache, whatever its argument: it leaves it
    alone (when numpy refuses the argument before line 37) or replaces it
    by a list of three arrays. *)
Lemma fprop_cache_cases (inputs : ndarray A) (l : layer A) :
  (fprop inputs l).1 = l \/ length (cache (fprop inputs l).1) = 3.
Proof.
  rw /fprop.
  repeat (rw bind_lift; cbv beta iota zeta;
          try match goal with
              | |- context [match ?r with Ok _ => _ | Err _ => _ end] =>
                  destruct r; [|by left]
              end).
  right. rw bind_set_cache /mbind /meth_bind /bind /getattr /lift /=.
  repeat match goal with
         | |- context [match ?r with Ok _ => _ | Err _ => _ end] => destruct r
         | |- context [match ?o with Some _ => _ | None => _ end] => destruct o
         end; done.
Qed.

(** The cache is the empty list until the first forward pass that reaches
    line 37 and a list of three arrays from then on, through every sequence
    of calls: once populated it is never emptied. *)
Theorem cache_empty_or_triple (i o : Z) (cs : list (call A)) :
  exists l0 : layer A,
    __init__ i o = Ok l0
    /\ (cache (after cs l0) = [] \/ length (cache (after cs l0)) = 3)
    /\ forall (cs' : list (call A)),
         length (cache (after cs l0)) = 3 ->
         length (cache (after cs' (after cs l0))) = 3.
Proof.
  eexists. split; [reflexivity|].
  assert (forall (c : call A) l,
             cache (exec c l).1 = cache l \/ length (cache (exec c l).1) = 3) as Hstep.
  { intros c l. rw exec_state.
    destruct c as [x| | | |[|v [|? ?]]|]; try by left.
    - destruct (fprop_cache_cases x l) as [->|?]; by [left|right].
    - left. rw params_set_state. by destruct (v !! 0), (v !! 1). }
  assert (forall (ds : list (call A)) l,
             length (cache l) = 3 -> length (cache (after ds l)) = 3) as Hkeep.
  { induction ds as [|c ds IH]; intros l Hl; [done|].
    simpl. apply IH. by destruct (Hstep c l) as [->|?]. }
  split; [|intros cs'; apply Hkeep].
  generalize (Layer (A:=A) i i None None []) (eq_refl : cache (Layer (A:=A) i i None None []) = []).
  induction cs as [|c cs IH]; intros l Hl; [by left|].
  simpl. destruct (Hstep c l) as [Hc|Hc].
  - apply IH. by rw Hc.
  - right. by apply Hkeep.
Qed.

(** [fprop] never reads the cache: started from two instances that differ
    in the cache only, it returns the same value or raises the same
    exception, and either it fails before line 37 in both and leaves each
    cache alone, or it leaves the same instance behind. *)
Theorem fprop_ignores_previous_cache (inputs : ndarray A) (l : layer A) (c : list (ndarray A)) :
  let lc := Layer (input_dim l) (output_dim l) (gamma l) (beta l) c in
  (fprop inputs lc).2 = (fprop inputs l).2
  /\ (((fprop inputs lc).1 = lc /\ (fprop inputs l).1 = l /\ exists e, (fprop inputs l).2 = Err e)
      \/ (fprop inputs lc).1 = (fprop inputs l).1).
Proof.
  intros lc. rw /fprop.
  repeat (rw !bind_lift; cbv beta iota zeta;
          try match goal with
              | |- context [match ?r with Ok _ => _ | Err _ => _ end] =>
                  destruct r; [|split; [done|left; by eauto]]
              end).
  rw !bind_set_cache. split; [done|by right].
Qed.

(** An empty batch goes through [fprop], which returns an empty batch, and
    then stops [bprop], which divides 1.0 by the number of rows. *)
Theorem empty_batch_forward_then_backward
    (D : nat) (gm bt : list A) (outputs : ndarray A) (l : layer A) :
  gamma l = Some (Arr1 gm) -> length gm = D ->
  beta l = Some (Arr1 bt) -> length bt = D ->
  exists l',
    fprop (Arr2 D []) l = (l', Ok (Arr2 D []))
    /\ bprop (Arr2 D []) outputs (Arr2 D []) l'
       = (l', Err (Raise ZeroDivisionError "float division by zero")).
Proof.
  intros Hg Hgm Hb Hbt.
  assert (gamma l = Some (Arr1 (vtab D (fun j => gm !!! j)))) as Hg'
    by (rw Hg; do 2 f_equal; by apply vec_as_vtab).
  assert (beta l = Some (Arr1 (vtab D (fun j => bt !!! j)))) as Hb'
    by (rw Hb; do 2 f_equal; by apply vec_as_vtab).
  change (@nil (list A)) with (tab 0 D (fun _ _ : nat => zero)).
  rw (fprop_tab 0 D _ _ _ l Hg' Hb'). eexists. split; [done|].
  rw /bprop. numpy_step. cbn [cache]. rw /fprop_cache. numpy_step.
  rw (bind_getattr _ gamma _ _ (Arr1 (vtab D (fun j => gm !!! j)))) //.
  numpy_step. done.
Qed.

(** A [gamma] whose length is neither the number of columns nor 1 (on a
    batch of more than one column) makes [fprop] raise numpy's broadcasting
    error, after the cache has been written. *)
Theorem fprop_rejects_mismatched_gamma
    (N D : nat) (rows : list (list A)) (gm : list A) (l : layer A) :
  length rows = N -> rect D rows ->
  gamma l = Some (Arr1 gm) ->
  length gm <> D -> length gm <> 1 -> D <> 1 ->
  exists l',
    fprop (Arr2 D rows) l = (l', Err broadcast_error)
    /\ length (cache l') = 3
    /\ gamma l' = gamma l.
Proof.
  intros Hn Hr Hg H1 H2 H3.
  assert (rows = tab N D (entry rows)) as Hx by by apply rows_as_tab.
  exists (Layer (input_dim l) (output_dim l) (gamma l) (beta l)
            (fprop_cache N D (entry rows))).
  split; [|done].
  rw {1}Hx /fprop. numpy_step.
  rw (bind_getattr _ gamma _ _ (Arr1 gm)) //.
  by rw bind_lift /= /bdim_r /bdim !decide_False.
Qed.

Lemma zip_b_singleton_l (f : A -> A -> A) D k (u : nat -> A) :
  zip_b f D [k] (vtab D u) = vtab D (fun j => f k (u j)).
Proof.
  rw /zip_b.
  assert (stretch D (vtab D u) = vtab D u) as ->
    by apply stretch_length, length_vtab.
  change (stretch D [k]) with (replicate D k).
  by rw vtab_replicate zip_with_vtab.
Qed.

Lemma bdim_r_one_l n : bdim_r 1 n = Ok n.
Proof.
  rw /bdim_r /bdim. by destruct (decide (1 = n)) as [<-|?].
Qed.

Lemma bdim_r_one_r n : bdim_r n 1 = Ok n.
Proof.
  rw /bdim_r /bdim. by destruct (decide (n = 1)) as [->|?].
Qed.

Lemma zip_b_singleton_r (f : A -> A -> A) D k (u : nat -> A) :
  zip_b f D (vtab D u) [k] = vtab D (fun j => f (u j) k).
Proof.
  rw /zip_b.
  assert (stretch D (vtab D u) = vtab D u) as ->
    by apply stretch_length, length_vtab.
  change (stretch D [k]) with (replicate D k).
  by rw vtab_replicate zip_with_vtab.
Qed.

Lemma binop_singleton_mat (f : A -> A -> A) N D k (b : nat -> nat -> A) :
  nd_binop f (Arr1 [k]) (Arr2 D (tab N D b))
  = Ok (Arr2 D (tab N D (fun i j => f k (b i j)))).
Proof.
  rw /= bdim_r_one_l /=. do 2 f_equal.
  rw /tab vtab_fmap. apply vtab_ext; intros i _. apply zip_b_singleton_l.
Qed.

Lemma binop_mat_singleton (f : A -> A -> A) N D (a : nat -> nat -> A) k :
  nd_binop f (Arr2 D (tab N D a)) (Arr1 [k])
  = Ok (Arr2 D (tab N D (fun i j => f (a i j) k))).
Proof.
  rw /= bdim_r_one_r /=. do 2 f_equal.
  rw /tab vtab_fmap. apply vtab_ext; intros i _. apply zip_b_singleton_r.
Qed.


Lemma binop_rows_mismatch (f : A -> A -> A) N1 N2 D (a b : nat -> nat -> A) :
  N1 <> N2 -> N1 <> 1 -> N2 <> 1 ->
  nd_binop f (Arr2 D (tab N1 D a)) (Arr2 D (tab N2 D b)) = Err broadcast_error.
Proof.
  intros ???. rw /= !length_tab /bdim_r /bdim.
  by rw (decide_False (P:=N1 = N2)) // (decide_False (P:=N1 = 1)) //
        (decide_False (P:=N2 = 1)).
Qed.

(** A cache left by a batch of another size is detected only through the
    shapes: with the cache of a batch of [N1] rows, output gradients of
    [N2 <> N1] rows (neither being 1) make both [grads_wrt_params] and
    [bprop] raise numpy's broadcasting error. *)
Theorem stale_cache_of_other_batch_size
    (N1 N2 D D' : nat) (rows gs rows' : list (list A)) (gm : list A)
    (inputs outputs : ndarray A) (l : layer A) :
  length rows = N1 -> rect D rows ->
  length gs = N2 -> rect D gs ->
  N1 <> N2 -> N1 <> 1 -> N2 <> 1 ->
  gamma l = Some (Arr1 gm) -> length gm = D ->
  let l' := (fprop (Arr2 D rows) l).1 in
  grads_wrt_params inputs (Arr2 D gs) l' = (l', Err broadcast_error)
  /\ bprop (Arr2 D' rows') outputs (Arr2 D gs) l' = (l', Err broadcast_error).
Proof.
  intros Hn Hr Hgn Hgr H1 H2 H3 Hg Hgm l'.
  assert (rows = tab N1 D (entry rows)) as Hx by by apply rows_as_tab.
  assert (gs = tab N2 D (entry gs)) as Hgs by by apply rows_as_tab.
  assert (l' = Layer (input_dim l) (output_dim l) (gamma l) (beta l)
                 (fprop_cache N1 D (entry rows))) as ->.
  { rw /l' {1}Hx. apply fprop_state_tab. }
  rw {1 2}Hgs. split.
  - rw /grads_wrt_params. numpy_step. cbn [cache]. rw /fprop_cache. numpy_step.
    by rw binop_rows_mismatch.
  - rw /bprop. numpy_step. cbn [cache]. rw /fprop_cache. numpy_step.
    rw /unpack_shape. cbn [shape]. cbv beta iota.
    assert (gamma l = Some (Arr1 (vtab D (fun j => gm !!! j)))) as Hg'
      by (rw Hg; do 2 f_equal; by apply vec_as_vtab).
    rw (bind_getattr _ gamma _ _ (Arr1 (vtab D (fun j => gm !!! j)))) //.
    numpy_step. by rw binop_rows_mismatch.
Qed.

Lemma binop_mat_row (f : A -> A -> A) N D (a b : nat -> nat -> A) :
  nd_binop f (Arr2 D (tab N D a)) (Arr2 D (tab 1 D b))
  = Ok (Arr2 D (tab N D (fun i j => f (a i j) (b 0 j)))).
Proof.
  rw /= !length_tab bdim_r_one_r bdim_r_same /=. do 2 f_equal.
  rw (stretch_length N (tab N D a)) ?length_tab //.
  change (stretch N (tab 1 D b)) with (replicate N (vtab D (b 0))).
  rw vtab_replicate /tab zip_with_vtab.
  apply vtab_ext; intros i _. apply zip_b_vtab.
Qed.

(** The cache of a one-row batch raises nothing afterwards: whatever the
    number of rows of the output gradients, [grads_wrt_params] multiplies
    each of them by the single cached row of [uhat]. *)
Theorem one_row_cache_is_broadcast
    (N D : nat) (row : list A) (gs : list (list A)) (inputs : ndarray A) (l : layer A) :
  length row = D -> length gs = N -> rect D gs ->
  let l' := (fprop (Arr2 D [row]) l).1 in
  exists uhat grad_gamma grad_beta,
    cache l' !! 2 = Some (Arr2 D [uhat])
    /\ grads_wrt_params inputs (Arr2 D gs) l'
       = (l', Ok [Arr1 grad_gamma; Arr1 grad_beta])
    /\ forall j, j < D ->
         grad_gamma !!! j
         = sum_over_batch N (fun i => s_mul (entry gs i j) (uhat !!! j)).
Proof.
  intros Hrow Hgn Hgr l'.
  assert ([row] = tab 1 D (entry [row])) as Hx.
  { apply rows_as_tab; [done|]. by repeat constructor. }
  assert (gs = tab N D (entry gs)) as Hgs by by apply rows_as_tab.
  assert (l' = Layer (input_dim l) (output_dim l) (gamma l) (beta l)
                 (fprop_cache 1 D (entry [row]))) as ->.
  { rw /l' {1}Hx. apply fprop_state_tab. }
  exists (vtab D (uhat_of 1 (entry [row]) 0)). do 2 eexists.
  split; [done|]. split.
  - rw {1}Hgs /grads_wrt_params. numpy_step. cbn [cache]. rw /fprop_cache.
    numpy_step. rw binop_mat_row. numpy_step. done.
  - intros j Hj. rw lookup_total_vtab //.
    apply sum_over_batch_ext; intros i Hi. by rw lookup_total_vtab.
Qed.

(** [bprop] uses [inputs] for its number of rows only, and [outputs] not
    at all: two calls whose [inputs] are matrices with the same number of
    rows agree, whatever their entries and columns and whatever
    [outputs] is. *)
Theorem bprop_reads_only_the_row_count
    (D1 D2 : nat) (rows1 rows2 : list (list A)) (outputs1 outputs2 g : ndarray A)
    (l : layer A) :
  length rows1 = length rows2 ->
  bprop (Arr2 D1 rows1) outputs1 g l = bprop (Arr2 D2 rows2) outputs2 g l.
Proof.
  intros Hlen. rw /bprop !bind_get_cache !bind_lift.
  destruct (unpack3 (cache l)) as [[[std diff] uhat]|e]; [|done].
  by rw !bind_lift /unpack_shape /= Hlen.
Qed.

(** The setter on a list of fewer than two items: with one item it has
    already replaced [gamma] when [values[1]] raises [IndexError]; with none
    it changes nothing.  Items after the second are ignored. *)
Theorem params_setter_short_and_long_lists (g b : ndarray A) (rest : list (ndarray A)) (l : layer A) :
  exec (call_params_with [[]]) l
  = (l, Err (Raise IndexError "list index out of range"))
  /\ exec (call_params_with [[g]]) l
     = (Layer (input_dim l) (output_dim l) (Some g) (beta l) (cache l),
        Err (Raise IndexError "list index out of range"))
  /\ exec (call_params_with [g :: b :: rest]) l
     = (Layer (input_dim l) (output_dim l) (Some g) (Some b) (cache l), Ok PNone).
Proof. by rw /= /call_params class_dict_params. Qed.

(** [__repr__] never shows the [output_dim] given to the constructor: on an
    instance constructed with any [input_dim] and [output_dim], and after
    any sequence of calls, it prints [input_dim] in both places and leaves
    the instance as it was. *)
Theorem repr_prints_input_dim_twice (i o : Z) (cs : list (call A)) :
  exists l0 : layer A,
    __init__ i o = Ok l0
    /\ __repr__ (after cs l0)
       = (after cs l0,
          Ok ("BatchNormalizedLayer(input_dim=" +:+ pretty i
              +:+ ", output_dim=" +:+ pretty i +:+ ")")).
Proof.
  eexists. split; [reflexivity|].
  rw /__repr__. by destruct (after_dims cs (Layer (A:=A) i i None None [])) as [-> ->].
Qed.

End Protocol.

(** ** What the forward and backward pass compute, over the real numbers *)

Section Statistics.
Implicit Types (rows gs : list (list R)) (l : layer R) (x : nat -> nat -> R).
Local Open Scope R_scope.

Lemma foldl_Rplus_affine (f g : nat -> R) (a b c : R) (idx : list nat) (u v w : R) :
  foldl Rplus (a * u + b * v + w) ((fun i => a * f i + b * g i + c) <$> idx)
  = a * foldl Rplus u (f <$> idx) + b * foldl Rplus v (g <$> idx)
    + (w + INR (length idx) * c).
Proof.
  revert u v w. induction idx as [|i idx IH]; intros u v w.
  - simpl. ring.
  - cbn [fmap list_fmap foldl length].
    replace (a * u + b * v + w + (a * f i + b * g i + c))
      with (a * (u + f i) + b * (v + g i) + (w + c)) by ring.
    rw IH S_INR. ring.
Qed.

(** Sums over the batch are linear. *)
Lemma sum_over_batch_affine N (f g : nat -> R) (a b c : R) :
  sum_over_batch N (fun i => a * f i + b * g i + c)
  = a * sum_over_batch N f + b * sum_over_batch N g + INR N * c.
Proof.
  rw /sum_over_batch /vtab. cbn [s_add real_scalar].
  change (@zero R real_scalar) with 0.
  replace 0 with (a * 0 + b * 0 + 0) at 1 by ring.
  rw foldl_Rplus_affine length_seq. ring.
Qed.

Lemma sum_over_batch_shift N (f : nat -> R) (c : R) :
  sum_over_batch N (fun i => f i + c) = sum_over_batch N f + INR N * c.
Proof.
  rw (sum_over_batch_ext N _ (fun i => 1 * f i + 0 * f i + c));
    [|intros; ring]. rw sum_over_batch_affine. ring.
Qed.

Lemma sum_over_batch_scale N (f : nat -> R) (a : R) :
  sum_over_batch N (fun i => a * f i) = a * sum_over_batch N f.
Proof.
  rw (sum_over_batch_ext N _ (fun i => a * f i + 0 * f i + 0));
    [|intros; ring]. rw sum_over_batch_affine. ring.
Qed.

Lemma count_nonzero (N : nat) : (1 <= N)%nat -> IZR (Z.of_nat N) <> 0.
Proof. intros HN. pose proof (count_pos N HN). lra. Qed.

Lemma diff_of_sum_zero N x j :
  (1 <= N)%nat -> sum_over_batch N (fun i => diff_of N x i j) = 0.
Proof.
  intros HN. rw /diff_of /mean_of.
  cbn [s_sub s_div s_of_Z real_scalar].
  rw (sum_over_batch_ext N _
        (fun i => x i j + - (sum_over_batch N (fun i0 => x i0 j) / IZR (Z.of_nat N))));
    [|intros; ring].
  rw sum_over_batch_shift INR_IZR_INZ. field. by apply count_nonzero.
Qed.

Lemma uhat_of_as_scaled_diff N x i j :
  uhat_of N x i j = / sqrt (std_of N x j) * diff_of N x i j.
Proof.
  rw /uhat_of /diff_of. cbn [s_sub s_div s_sqrt real_scalar]. rw /Rdiv. ring.
Qed.




Lemma mean_of_shift N x (c : nat -> R) j :
  (1 <= N)%nat ->
  mean_of N (fun i j => x i j + c j) j = mean_of N x j + c j.
Proof.
  intros HN. rw /mean_of. cbn [s_div s_of_Z real_scalar].
  rw sum_over_batch_shift INR_IZR_INZ. field. by apply count_nonzero.
Qed.

Lemma diff_of_shift N x (c : nat -> R) i j :
  (1 <= N)%nat ->
  diff_of N (fun i j => x i j + c j) i j = diff_of N x i j.
Proof.
  intros HN. rw /diff_of mean_of_shift //. cbn [s_sub real_scalar]. ring.
Qed.

Lemma var_of_shift N x (c : nat -> R) j :
  (1 <= N)%nat ->
  var_of N (fun i j => x i j + c j) j = var_of N x j.
Proof.
  intros HN. rw /var_of. f_equal.
  apply sum_over_batch_ext; intros i _.
  rw mean_of_shift //. cbn [s_sub s_mul real_scalar]. ring.
Qed.

Lemma fprop_cache_shift N D x (c : nat -> R) :
  (1 <= N)%nat ->
  fprop_cache N D (fun i j => x i j + c j) = fprop_cache N D x.
Proof.
  intros HN. rw /fprop_cache.
  assert (forall j, std_of N (fun i j => x i j + c j) j = std_of N x j) as Hs.
  { intros j. by rw /std_of var_of_shift. }
  f_equal; [|f_equal; [|f_equal]]; f_equal.
  - apply vtab_ext; intros j _. apply Hs.
  - apply tab_ext; intros i j _ _. by apply diff_of_shift.
  - apply tab_ext; intros i j _ _.
    by rw !uhat_of_as_scaled_diff Hs diff_of_shift.
Qed.

(** On a batch given by its entries, the whole of [fprop] is determined by
    the cache it writes. *)
Lemma fprop_determined_by_cache N D x x' l :
  fprop_cache N D x = fprop_cache N D x' ->
  fprop (Arr2 D (tab N D x)) l = fprop (Arr2 D (tab N D x')) l.
Proof.
  intros Hc. rw /fprop_cache /uhat_of /diff_of /std_of in Hc.
  injection Hc as H1 H2 H3.
  rw /fprop /scalar /np_divide /np_sqrt.
  repeat progress
    (rw ?bind_lift ?mean0_mat ?var0_mat ?binop_vec_scalar ?nd_map_vec
        ?binop_mat_vec; cbv beta iota zeta).
  by rw !bind_set_cache H1 H2 H3.
Qed.


Lemma sum_over_batch_const N (c : R) : sum_over_batch N (fun _ => c) = INR N * c.
Proof.
  rw (sum_over_batch_ext N _ (fun i : nat => 0 * 0 + 0 * 0 + c)); [|intros; ring].
  rw (sum_over_batch_affine N (fun _ => 0) (fun _ => 0)). ring.
Qed.

Lemma sqrt_eps : sqrt 1e-8 = 1e-4.
Proof. apply sqrt_lem_1; lra. Qed.

Lemma sqrt_sqrt_eps : sqrt 1e-4 = 1e-2.
Proof. apply sqrt_lem_1; lra. Qed.



End Statistics.

(** ** Repeating the forward pass *)

Section Repeat.
Context {A : Type} `{Scalar A}.

(** [fprop] either fails on its argument before it touches the instance, or
    writes a cache that depends on the argument only and goes on with
    statements that read [gamma] and [beta] and write nothing. *)
Lemma fprop_factor (inputs : ndarray A) :
  (exists e, forall l : layer A, fprop inputs l = (l, Err e))
  \/ (exists c (k : Meth A (ndarray A)),
        (forall l, fprop inputs l
                   = k (Layer (input_dim l) (output_dim l) (gamma l) (beta l) c))
        /\ (forall l, (k l).1 = l)).
Proof.
  destruct (np_mean0 inputs) as [mu|e] eqn:E1;
    [|left; exists e; intros l; by rw /fprop bind_lift E1].
  destruct (np_var0 inputs) as [sigma2|e] eqn:E2;
    [|left; exists e; intros l; by rw /fprop bind_lift E1 bind_lift E2].
  destruct (nd_binop s_add sigma2 (scalar s_eps)) as [s|e] eqn:E3;
    [|left; exists e; intros l;
      by rw /fprop bind_lift E1 bind_lift E2 bind_lift E3].
  destruct (nd_binop s_sub inputs mu) as [diff|e] eqn:E4;
    [|left; exists e; intros l;
      by rw /fprop bind_lift E1 bind_lift E2 bind_lift E3 /= bind_lift E4].
  destruct (np_divide diff (np_sqrt (np_sqrt s))) as [uhat|e] eqn:E5;
    [|left; exists e; intros l;
      by rw /fprop bind_lift E1 bind_lift E2 bind_lift E3 /= bind_lift E4
            bind_lift bind_lift E5].
  right. exists [np_sqrt s; diff; uhat].
  exists (g ← getattr "gamma" gamma;
          gu ← lift (nd_binop s_mul g uhat);
          b ← getattr "beta" beta;
          y ← lift (nd_binop s_add gu b);
          mret y).
  split.
  - intros l.
    by rw /fprop bind_lift E1 bind_lift E2 bind_lift E3 /= bind_lift E4
          bind_lift bind_lift E5 bind_set_cache.
  - intros l.
    apply getattr_bind_fst; intros g. apply lift_bind_fst; intros gu.
    apply getattr_bind_fst; intros b. by apply lift_bind_fst; intros y.
Qed.

(** A second [fprop] on the same argument returns what the first returned
    and changes nothing more. *)
Theorem fprop_twice_is_fprop_once (inputs : ndarray A) (l : layer A) :
  fprop inputs (fprop inputs l).1 = fprop inputs l.
Proof.
  destruct (fprop_factor inputs) as [[e He]|(c & k & Hk & Hp)].
  - by rw !He.
  - by rw (Hk l) Hp Hk.
Qed.

End Repeat.

(** ** The further properties at concrete batches *)

Section MoreInstances.

Definition grads_1_2 : ndarray float := Arr2 1 [[1%float]; [2%float]].

Definition wide_batch : list (list float) := [[0%float; 1%float]; [4%float; 5%float]].

Lemma rect_wide_batch : rect 2 wide_batch.
Proof. repeat constructor. Defined.

Definition three_rows : list (list float) := [[1%float]; [2%float]; [3%float]].

Lemma rect_three_rows : rect 1 three_rows.
Proof. repeat constructor. Defined.

Lemma fprop_before_params_witness :
  exists l1,
    fprop batch_0_4 (Layer 1 1 None None []) = (l1, Err (no_attribute "gamma"))
    /\ length (cache l1) = 3.
Proof.
  destruct (fprop_before_params_caches_then_raises (A:=float) 1 1 2 1
              [[0%float]; [4%float]] [[1%float]; [2%float]] batch_0_4
              eq_refl rect_0_4 eq_refl rect_1_2)
    as (l0 & l1 & grads & H0 & _ & Hf & Hc & _).
  injection H0 as <-. exists l1. split; [exact Hf|exact Hc].
Defined.

Lemma read_only_calls_witness :
  after [call_bprop batch_0_4 batch_0_4 grads_1_2; call_repr;
         call_grads_wrt_params batch_0_4 grads_1_2] unit_layer
  = unit_layer.
Proof.
  exact (proj1 (read_only_calls_keep_instance
                  [call_bprop batch_0_4 batch_0_4 grads_1_2; call_repr;
                   call_grads_wrt_params batch_0_4 grads_1_2]
                  unit_layer batch_0_4 batch_0_4 grads_1_2 eq_refl)).
Defined.

Lemma empty_batch_witness :
  exists l',
    fprop (Arr2 1 []) unit_layer = (l', Ok (Arr2 1 []))
    /\ bprop (Arr2 1 []) batch_0_4 (Arr2 1 []) l'
       = (l', Err (Raise ZeroDivisionError "float division by zero")).
Proof.
  exact (empty_batch_forward_then_backward 1 [1%float] [0%float] batch_0_4
           unit_layer eq_refl eq_refl eq_refl eq_refl).
Defined.

Lemma mismatched_gamma_witness :
  exists l',
    fprop (Arr2 2 wide_batch)
      (Layer 2 2 (Some (Arr1 [1%float; 1%float; 1%float])) None [])
    = (l', Err broadcast_error).
Proof.
  destruct (fprop_rejects_mismatched_gamma 2 2 wide_batch
              [1%float; 1%float; 1%float]
              (Layer 2 2 (Some (Arr1 [1%float; 1%float; 1%float])) None [])
              eq_refl rect_wide_batch eq_refl
              ltac:(discriminate) ltac:(discriminate) ltac:(discriminate))
    as (l' & Hf & _).
  exists l'. exact Hf.
Defined.


Lemma stale_cache_witness :
  grads_wrt_params batch_0_4 (Arr2 1 three_rows) (fprop batch_0_4 unit_layer).1
  = ((fprop batch_0_4 unit_layer).1, Err broadcast_error).
Proof.
  exact (proj1 (stale_cache_of_other_batch_size 2 3 1 1
                  [[0%float]; [4%float]] three_rows three_rows [1%float]
                  batch_0_4 batch_0_4 unit_layer
                  eq_refl rect_0_4 eq_refl rect_three_rows
                  ltac:(discriminate) ltac:(discriminate) ltac:(discriminate)
                  eq_refl eq_refl)).
Defined.

Lemma one_row_cache_witness :
  exists grads,
    grads_wrt_params batch_0_4 (Arr2 1 three_rows)
      (fprop (Arr2 1 [[7%float]]) unit_layer).1
    = ((fprop (Arr2 1 [[7%float]]) unit_layer).1, Ok grads).
Proof.
  destruct (one_row_cache_is_broadcast 3 1 [7%float] three_rows batch_0_4 unit_layer
              eq_refl eq_refl rect_three_rows)
    as (uhat & gg & gb & _ & Hg & _).
  eexists. exact Hg.
Defined.

Lemma bprop_row_count_witness :
  bprop batch_0_4 batch_0_4 grads_1_2 unit_layer
  = bprop (Arr2 2 wide_batch) grads_1_2 grads_1_2 unit_layer.
Proof.
  exact (bprop_reads_only_the_row_count 1 2 [[0%float]; [4%float]] wide_batch
           batch_0_4 grads_1_2 grads_1_2 unit_layer eq_refl).
Defined.





Lemma constant_batch_entries (i : nat) : i < 2 -> entry constant_batch i 0 = 3%R.
Proof.
  intros Hi. destruct i as [|[|i]]; [reflexivity|reflexivity|].
  exfalso. apply Nat.succ_lt_mono, Nat.succ_lt_mono in Hi. exact (Nat.nlt_0_r _ Hi).
Defined.



End MoreInstances.
